(** * control.py: the AC and lighting state machines and the room aggregator

    A shallow embedding of [src/control.py].  Python objects are records,
    a method is a function of the receiver's state that returns the outcome
    of the call (a value or a raised exception) together with the receiver's
    state after the call. *)

From Stdlib Require Import ZArith Bool List Lia.
From Stdlib Require Import SpecFloat.
From stdpp Require Import gmap strings.

Local Open Scope string_scope.
Local Open Scope Z_scope.

(** ** Python values

    The values that reach the control layer: the entries of a
    [Dict[str, Any]] reading and the arguments of the two [update_state]
    methods.  A Python [float] is an IEEE 754 binary64 number. *)

Inductive pyval : Type :=
| PyNone
| PyBool (b : bool)
| PyInt (z : Z)
| PyFloat (f : spec_float)
| PyStr (s : string).

Inductive exn : Type :=
| TypeError
| KeyError (key : string).

Inductive outcome (A : Type) : Type :=
| Return (a : A)
| Raise (e : exn).

Arguments Return {A} a.
Arguments Raise {A} e.

(** ** Methods: state and exceptions *)

Module Py.

(** A method body run on a receiver of type [S]: the outcome and the
    receiver afterwards.  An exception keeps the mutations made so far. *)
Definition M (S A : Type) : Type := S -> outcome A * S.

Definition ret {S A} (a : A) : M S A := fun s => (Return a, s).

Definition bind {S A B} (m : M S A) (k : A -> M S B) : M S B :=
  fun s =>
    match m s with
    | (Return a, s') => k a s'
    | (Raise e, s') => (Raise e, s')
    end.

Definition put {S} (s : S) : M S unit := fun _ => (Return tt, s).

(** An expression that reads no attribute of the receiver. *)
Definition eval {S A} (o : outcome A) : M S A := fun s => (o, s).

(** The truth value of an object ([bool(x)], as [if], [not] and [and]
    take it). *)
Definition truthy (v : pyval) : bool :=
  match v with
  | PyNone => false
  | PyBool b => b
  | PyInt z => negb (z =? 0)
  | PyFloat (S754_zero _) => false
  | PyFloat _ => true
  | PyStr s => negb (String.eqb s "")
  end.

(** A float against an int: CPython compares the two exactly, without
    rounding the int.  [None] is the unordered outcome of a NaN. *)
Definition float_compare_int (f : spec_float) (n : Z) : option comparison :=
  match f with
  | S754_nan => None
  | S754_infinity s => Some (if s then Lt else Gt)
  | S754_zero _ => Some (0 ?= n)
  | S754_finite s m e =>
      let v := cond_Zopp s (Zpos m) in
      Some (if 0 <=? e then v * 2 ^ e ?= n else v ?= n * 2 ^ (- e))
  end.

(** [v ?= n] for an int literal [n]; [bool] is a subclass of [int]. *)
Definition compare_int (v : pyval) (n : Z) : outcome (option comparison) :=
  match v with
  | PyBool b => Return (Some (Z.b2z b ?= n))
  | PyInt z => Return (Some (z ?= n))
  | PyFloat f => Return (float_compare_int f n)
  | PyNone | PyStr _ => Raise TypeError
  end.

(** [v >= n] *)
Definition ge (v : pyval) (n : Z) : outcome bool :=
  match compare_int v n with
  | Return (Some (Gt | Eq)) => Return true
  | Return _ => Return false
  | Raise e => Raise e
  end.

(** [v < n] *)
Definition lt (v : pyval) (n : Z) : outcome bool :=
  match compare_int v n with
  | Return (Some Lt) => Return true
  | Return _ => Return false
  | Raise e => Raise e
  end.

(** [v == s] for a string literal [s]. *)
Definition eq_str (v : pyval) (s : string) : bool :=
  match v with
  | PyStr s' => String.eqb s' s
  | _ => false
  end.

(** The float literal [z.0], for an int that binary64 holds exactly. *)
Definition float_of_int (z : Z) : spec_float :=
  binary_normalize 53 1024 z 0 false.

End Py.

Declare Scope py_scope.
Delimit Scope py_scope with py.
Notation "x <- m ;; k" := (Py.bind m (fun x => k))
  (at level 100, m at next level, right associativity) : py_scope.
Notation "m ;; k" := (Py.bind m (fun _ => k))
  (at level 100, right associativity) : py_scope.

(** ** class ACController *)

Module ACController.

Record t : Type := { state : string }.

Definition __init__ : t := {| state := "OFF" |}.

Definition set_state (s : string) : Py.M t unit :=
  Py.put {| state := s |}.

Definition get_state : Py.M t string :=
  fun self => (Return (state self), self).

Definition update_state (occupied temp : pyval) : Py.M t string :=
  ((if negb (Py.truthy occupied) then
      set_state "OFF"
    else
      s <- get_state ;;
      if String.eqb s "OFF" then
        c <- Py.eval (Py.ge temp 28) ;;
        set_state (if c then "COOLING" else "STANDBY")
      else if String.eqb s "STANDBY" then
        c <- Py.eval (Py.ge temp 28) ;;
        if c then set_state "COOLING" else Py.ret tt
      else if String.eqb s "COOLING" then
        c <- Py.eval (Py.lt temp 24) ;;
        if c then set_state "STANDBY" else Py.ret tt
      else
        Py.ret tt) ;;
   get_state)%py.

End ACController.

(** ** class LightController *)

Module LightController.

Record t : Type := { state : string }.

Definition __init__ : t := {| state := "OFF" |}.

Definition set_state (s : string) : Py.M t unit :=
  Py.put {| state := s |}.

Definition get_state : Py.M t string :=
  fun self => (Return (state self), self).

Definition update_state (occupied light_level : pyval) : Py.M t string :=
  (c <- (if Py.truthy occupied
         then Py.eval (Py.lt light_level 300)
         else Py.ret false) ;;
   (if c then set_state "ON" else set_state "OFF") ;;
   get_state)%py.

End LightController.

(** ** class RoomController *)

Module RoomController.

Record t : Type := {
  room_name : string;
  ac : ACController.t;
  lights : LightController.t;
  current_temp : pyval;
  is_occupied : pyval;
  current_light_level : pyval;
  manual_ac_override : pyval;
  manual_light_override : pyval
}.

Definition __init__ (room_name : string) : t :=
  {| room_name := room_name;
     ac := ACController.__init__;
     lights := LightController.__init__;
     current_temp := PyFloat (Py.float_of_int 20);
     is_occupied := PyBool false;
     current_light_level := PyInt 500;
     manual_ac_override := PyNone;
     manual_light_override := PyNone |}.

Definition set_current_temp (v : pyval) : Py.M t unit :=
  fun self =>
    (Return tt,
     {| room_name := room_name self;
        ac := ac self;
        lights := lights self;
        current_temp := v;
        is_occupied := is_occupied self;
        current_light_level := current_light_level self;
        manual_ac_override := manual_ac_override self;
        manual_light_override := manual_light_override self |}).

Definition set_is_occupied (v : pyval) : Py.M t unit :=
  fun self =>
    (Return tt,
     {| room_name := room_name self;
        ac := ac self;
        lights := lights self;
        current_temp := current_temp self;
        is_occupied := v;
        current_light_level := current_light_level self;
        manual_ac_override := manual_ac_override self;
        manual_light_override := manual_light_override self |}).

Definition set_current_light_level (v : pyval) : Py.M t unit :=
  fun self =>
    (Return tt,
     {| room_name := room_name self;
        ac := ac self;
        lights := lights self;
        current_temp := current_temp self;
        is_occupied := is_occupied self;
        current_light_level := v;
        manual_ac_override := manual_ac_override self;
        manual_light_override := manual_light_override self |}).

(** [sensor_data.get(key)]: [None] when the key is absent. *)
Definition dict_get (sensor_data : gmap string pyval) (key : string) : pyval :=
  default PyNone (sensor_data !! key).

(** [sensor_data[key]]: [KeyError] when the key is absent. *)
Definition dict_getitem (sensor_data : gmap string pyval) (key : string)
  : outcome pyval :=
  match sensor_data !! key with
  | Some v => Return v
  | None => Raise (KeyError key)
  end.

Definition update (sensor_data : gmap string pyval) : Py.M t unit :=
  (let stype := dict_get sensor_data "sensor_type" in
   if Py.eq_str stype "temperature" then
     v <- Py.eval (dict_getitem sensor_data "value") ;;
     set_current_temp v
   else if Py.eq_str stype "pir" then
     v <- Py.eval (dict_getitem sensor_data "occupied") ;;
     set_is_occupied v
   else if Py.eq_str stype "ldr" then
     v <- Py.eval (dict_getitem sensor_data "value") ;;
     set_current_light_level v
   else
     Py.ret tt)%py.

End RoomController.

(** ** A client of one ACController

    A sequence of [update_state] calls on one controller, [occupied] a
    [bool] as annotated.  A call that raises leaves the object as it is,
    and the next call is made on it. *)

Module ACTrace.

Record call : Type := { occupied : bool; temp : pyval }.

Definition step (self : ACController.t) (c : call) : ACController.t :=
  snd (ACController.update_state (PyBool (occupied c)) (temp c) self).

Definition run (calls : list call) (self : ACController.t) : ACController.t :=
  fold_left step calls self.

(** The call neither reports the room empty nor a temperature under the
    lower threshold. *)
Definition holds_cooling (c : call) : Prop :=
  occupied c = true /\ Py.lt (temp c) 24 <> Return true.

(** The three states the class docstring names. *)
Definition ac_state_name (s : string) : Prop :=
  s = "OFF" \/ s = "STANDBY" \/ s = "COOLING".

End ACTrace.

(** * Properties *)

(** ** Comparisons *)

Section Comparisons.

Variables (v : pyval) (n : Z).

Lemma ge_true_not_lt : Py.ge v n = Return true -> Py.lt v n = Return false.
Proof.
  unfold Py.ge, Py.lt.
  destruct (Py.compare_int v n) as [[[ | | ]| ]|e]; congruence.
Qed.

Lemma lt_true_not_ge : Py.lt v n = Return true -> Py.ge v n = Return false.
Proof.
  unfold Py.ge, Py.lt.
  destruct (Py.compare_int v n) as [[[ | | ]| ]|e]; congruence.
Qed.

End Comparisons.

(** On a [bool], an [int] or a [float] both comparisons return. *)
Lemma compare_number_returns (v : pyval) (n : Z) :
  (exists b, v = PyBool b) \/ (exists z, v = PyInt z) \/
  (exists f, v = PyFloat f) ->
  (exists c, Py.ge v n = Return c) /\ (exists c, Py.lt v n = Return c).
Proof.
  unfold Py.ge, Py.lt.
  intros [[b ->] | [[z ->] | [f ->]]]; simpl;
    [ destruct (Z.b2z b ?= n)
    | destruct (z ?= n)
    | destruct (Py.float_compare_int f n) as [[ | | ]| ] ]; eauto.
Qed.

(** ** Floats against int literals, and IEEE 754 *)

Lemma digits2_pos_bounds (m : positive) :
  2 ^ (Z.pos (digits2_pos m) - 1) <= Z.pos m < 2 ^ Z.pos (digits2_pos m).
Proof.
  induction m as [m IH | m IH | ]; simpl digits2_pos.
  - rewrite Pos2Z.inj_succ.
    replace (Z.succ (Z.pos (digits2_pos m)) - 1) with
      (Z.succ (Z.pos (digits2_pos m) - 1)) by lia.
    rewrite !Z.pow_succ_r by lia. lia.
  - rewrite Pos2Z.inj_succ.
    replace (Z.succ (Z.pos (digits2_pos m)) - 1) with
      (Z.succ (Z.pos (digits2_pos m) - 1)) by lia.
    rewrite !Z.pow_succ_r by lia. lia.
  - simpl. lia.
Qed.

(** On every binary64 value the exact comparison with an int [n] is the
    IEEE comparison with the float [n.0], here a normal number
    [m' * 2 ^ e']. *)
Section IEEE.
Variables (n : Z) (m' : positive) (e' : Z).
Hypothesis Hdigits : Z.pos (digits2_pos m') = 53.
Hypothesis Hmin : emin 53 1024 <= e' <= 0.
Hypothesis Hval : Z.pos m' = n * 2 ^ (- e').

Lemma float_compare_int_ieee (f : spec_float) :
  valid_binary 53 1024 f = true ->
  Py.float_compare_int f n = SFcompare f (S754_finite false m' e').
Proof.
  assert (Hm' := digits2_pos_bounds m'). rewrite Hdigits in Hm'.
  assert (Hpow' : 0 < 2 ^ (- e')) by (apply Z.pow_pos_nonneg; lia).
  assert (Hn : 0 < n) by nia.
  destruct f as [s | s | | s m e];
    cbn [Py.float_compare_int SFcompare valid_binary]; intros Hvalid;
    try reflexivity.
  - f_equal. now apply Z.compare_lt_iff.
  - f_equal.
    unfold bounded, canonical_mantissa, fexp in Hvalid.
    apply andb_prop in Hvalid. destruct Hvalid as [Hcanon _].
    apply Z.eqb_eq in Hcanon.
    assert (Hm := digits2_pos_bounds m).
    destruct s; cbn [cond_Zopp].
    + change (Z.opp (Z.pos m)) with (Z.neg m).
      assert (Hneg : Z.neg m < 0) by lia.
      destruct (Z.leb_spec 0 e).
      * assert (0 < 2 ^ e) by (apply Z.pow_pos_nonneg; lia).
        apply Z.compare_lt_iff. apply Z.lt_trans with 0; [ | exact Hn].
        now apply Z.mul_neg_pos.
      * assert (0 < 2 ^ (- e)) by (apply Z.pow_pos_nonneg; lia).
        apply Z.compare_lt_iff. apply Z.lt_trans with 0; [exact Hneg | ].
        now apply Z.mul_pos_pos.
    + rewrite Pos.compare_cont_spec.
      replace (Pos.switch_Eq Eq (m ?= m')%positive) with (m ?= m')%positive
        by now destruct (m ?= m')%positive.
      change (Pos.compare m m') with (Z.pos m ?= Z.pos m').
      destruct (Z.compare_spec e e') as [Heq | Hlt | Hgt].
      * subst e. destruct (Z.leb_spec 0 e').
        -- assert (He0 : e' = 0) by lia.
           rewrite He0 in Hval |- *. change (2 ^ (- 0)) with 1 in Hval.
           rewrite Z.pow_0_r, Z.mul_1_r. f_equal. lia.
        -- now rewrite Hval.
      * destruct (Z.leb_spec 0 e); [lia | ].
        apply Z.compare_lt_iff.
        assert (Hd : Z.pos (digits2_pos m) <= 53) by lia.
        assert (Z.pos m < 2 ^ 53).
        { eapply Z.lt_le_trans; [apply Hm | ].
          apply Z.pow_le_mono_r; lia. }
        replace (- e) with ((- e') + (e' - e)) by lia.
        rewrite Z.pow_add_r by lia.
        assert (2 ^ 1 <= 2 ^ (e' - e)) by (apply Z.pow_le_mono_r; lia).
        change (2 ^ 1) with 2 in *. change (2 ^ (53 - 1)) with (2 ^ 52) in *.
        rewrite Z.mul_assoc, <- Hval. 
        assert (2 ^ 53 = 2 * 2 ^ 52) by reflexivity. nia.
      * assert (Hd : Z.pos (digits2_pos m) = 53) by (unfold emin in *; lia).
        rewrite Hd in Hm. change (2 ^ (53 - 1)) with (2 ^ 52) in *.
        assert (H53 : 2 ^ 53 = 2 * 2 ^ 52) by reflexivity.
        destruct (Z.leb_spec 0 e); apply Z.compare_gt_iff.
        -- assert (2 ^ 1 <= 2 ^ (e - e')) by (apply Z.pow_le_mono_r; lia).
           change (2 ^ 1) with 2 in *.
           assert (Hsplit : 2 ^ e * 2 ^ (- e') = 2 ^ (e - e')).
           { rewrite <- Z.pow_add_r by lia. f_equal; lia. }
           assert (0 < 2 ^ e) by (apply Z.pow_pos_nonneg; lia).
           apply (Z.mul_lt_mono_pos_r (2 ^ (- e'))); [assumption | ].
           rewrite <- Hval, <- Z.mul_assoc, Hsplit. nia.
        -- assert (2 ^ 1 <= 2 ^ (e - e')) by (apply Z.pow_le_mono_r; lia).
           change (2 ^ 1) with 2 in *.
           assert (Hsplit : 2 ^ (- e) * 2 ^ (e - e') = 2 ^ (- e')).
           { rewrite <- Z.pow_add_r by lia. f_equal; lia. }
           assert (0 < 2 ^ (- e)) by (apply Z.pow_pos_nonneg; lia).
           rewrite <- Hsplit, Z.mul_assoc in Hval. nia.
Qed.
End IEEE.

(** [temp < 24], [temp >= 28] and [light_level < 300] on a float are the
    binary64 comparisons with 24.0, 28.0 and 300.0. *)
Lemma float_compare_int_thresholds (f : spec_float) :
  valid_binary 53 1024 f = true ->
  Py.float_compare_int f 24 = SFcompare f (Py.float_of_int 24) /\
  Py.float_compare_int f 28 = SFcompare f (Py.float_of_int 28) /\
  Py.float_compare_int f 300 = SFcompare f (Py.float_of_int 300).
Proof.
  intros Hvalid. repeat split;
    (apply float_compare_int_ieee;
     [reflexivity | now vm_compute | reflexivity | exact Hvalid]).
Qed.

Lemma float_lt_24_ieee (f : spec_float) :
  valid_binary 53 1024 f = true ->
  Py.lt (PyFloat f) 24 = Return (SFltb f (Py.float_of_int 24)).
Proof.
  intros Hvalid. unfold Py.lt, SFltb, Py.compare_int.
  rewrite (proj1 (float_compare_int_thresholds f Hvalid)).
  now destruct (SFcompare f (Py.float_of_int 24)) as [[ | | ]| ].
Qed.

Lemma float_ge_28_ieee (f : spec_float) :
  valid_binary 53 1024 f = true ->
  Py.ge (PyFloat f) 28 =
    Return match SFcompare f (Py.float_of_int 28) with
           | Some (Gt | Eq) => true
           | _ => false
           end.
Proof.
  intros Hvalid. unfold Py.ge, Py.compare_int.
  rewrite (proj1 (proj2 (float_compare_int_thresholds f Hvalid))).
  now destruct (SFcompare f (Py.float_of_int 28)) as [[ | | ]| ].
Qed.

(** ** ACController.update_state, branch by branch *)

Section ACBranches.

Import ACController.

Variables (occupied temp : pyval) (self : t).

Lemma update_state_unoccupied :
  Py.truthy occupied = false ->
  update_state occupied temp self = (Return "OFF", {| state := "OFF" |}).
Proof. intros Hocc. unfold update_state, Py.bind. now rewrite Hocc. Qed.

Lemma update_state_from_off :
  Py.truthy occupied = true ->
  state self = "OFF" ->
  update_state occupied temp self =
    match Py.ge temp 28 with
    | Return c =>
        let s := if c then "COOLING" else "STANDBY" in
        (Return s, {| state := s |})
    | Raise e => (Raise e, self)
    end.
Proof.
  intros Hocc Hst. unfold update_state, Py.bind, get_state, Py.eval.
  rewrite Hocc. simpl. rewrite Hst. simpl.
  now destruct (Py.ge temp 28) as [[ | ]|e].
Qed.

Lemma update_state_from_standby :
  Py.truthy occupied = true ->
  state self = "STANDBY" ->
  update_state occupied temp self =
    match Py.ge temp 28 with
    | Return true => (Return "COOLING", {| state := "COOLING" |})
    | Return false => (Return "STANDBY", self)
    | Raise e => (Raise e, self)
    end.
Proof.
  intros Hocc Hst. unfold update_state, Py.bind, get_state, Py.eval.
  rewrite Hocc. simpl. rewrite Hst. simpl.
  destruct (Py.ge temp 28) as [[ | ]|e]; simpl; try reflexivity.
  now rewrite Hst.
Qed.

Lemma update_state_from_cooling :
  Py.truthy occupied = true ->
  state self = "COOLING" ->
  update_state occupied temp self =
    match Py.lt temp 24 with
    | Return true => (Return "STANDBY", {| state := "STANDBY" |})
    | Return false => (Return "COOLING", self)
    | Raise e => (Raise e, self)
    end.
Proof.
  intros Hocc Hst. unfold update_state, Py.bind, get_state, Py.eval.
  rewrite Hocc. simpl. rewrite Hst. simpl.
  destruct (Py.lt temp 24) as [[ | ]|e]; simpl; try reflexivity.
  now rewrite Hst.
Qed.

End ACBranches.

Lemma ac_state_eta (self : ACController.t) (s : string) :
  ACController.state self = s -> self = {| ACController.state := s |}.
Proof. destruct self; simpl; congruence. Qed.

(** ** ACController: the transitions *)

(** C1. Called with [occupied=True] on a controller whose stored state is
    COOLING, [update_state] returns and stores STANDBY when [temp < 24],
    and returns COOLING, the stored state unchanged, for every
    [temp >= 24] (so for every temperature of the band from 24 up to 28). *)
Theorem ac_cooling_hysteresis (self : ACController.t) (temp : pyval) :
  ACController.state self = "COOLING" ->
  (Py.lt temp 24 = Return true ->
   ACController.update_state (PyBool true) temp self =
     (Return "STANDBY", {| ACController.state := "STANDBY" |})) /\
  (Py.ge temp 24 = Return true ->
   ACController.update_state (PyBool true) temp self =
     (Return "COOLING", {| ACController.state := "COOLING" |})).
Proof.
  intros Hst.
  rewrite (update_state_from_cooling (PyBool true) temp self eq_refl Hst).
  split; intros Hcmp.
  - now rewrite Hcmp.
  - rewrite (ge_true_not_lt _ _ Hcmp). now rewrite (ac_state_eta _ _ Hst).
Qed.

Lemma ac_cooling_hysteresis_witness :
  ACController.update_state (PyBool true) (PyFloat (Py.float_of_int 23))
      {| ACController.state := "COOLING" |} =
    (Return "STANDBY", {| ACController.state := "STANDBY" |}) /\
  ACController.update_state (PyBool true) (PyFloat (Py.float_of_int 26))
      {| ACController.state := "COOLING" |} =
    (Return "COOLING", {| ACController.state := "COOLING" |}).
Proof.
  split.
  - apply (ac_cooling_hysteresis
             {| ACController.state := "COOLING" |}
             (PyFloat (Py.float_of_int 23))); reflexivity.
  - apply (ac_cooling_hysteresis
             {| ACController.state := "COOLING" |}
             (PyFloat (Py.float_of_int 26))); reflexivity.
Defined.

(** C2. Called with [occupied=False], [update_state] returns OFF and
    stores OFF, whatever the stored state and whatever the temperature
    argument (which the call does not look at). *)
Theorem ac_unoccupied_off (self : ACController.t) (temp : pyval) :
  ACController.update_state (PyBool false) temp self =
    (Return "OFF", {| ACController.state := "OFF" |}).
Proof. now apply update_state_unoccupied. Qed.

(** C4. Called with [occupied=True] on a controller whose stored state is
    OFF, [update_state] returns and stores COOLING when [temp >= 28]
    holds (28 included) and STANDBY when it does not. *)
Theorem ac_off_occupied (self : ACController.t) (temp : pyval) (c : bool) :
  ACController.state self = "OFF" ->
  Py.ge temp 28 = Return c ->
  let s := if c then "COOLING" else "STANDBY" in
  ACController.update_state (PyBool true) temp self =
    (Return s, {| ACController.state := s |}).
Proof.
  intros Hst Hcmp.
  rewrite (update_state_from_off (PyBool true) temp self eq_refl Hst).
  now rewrite Hcmp.
Qed.

Lemma ac_off_occupied_witness :
  ACController.update_state (PyBool true) (PyFloat (Py.float_of_int 28))
      ACController.__init__ =
    (Return "COOLING", {| ACController.state := "COOLING" |}) /\
  ACController.update_state (PyBool true) (PyFloat (Py.float_of_int 27))
      ACController.__init__ =
    (Return "STANDBY", {| ACController.state := "STANDBY" |}).
Proof.
  split.
  - apply (ac_off_occupied ACController.__init__
             (PyFloat (Py.float_of_int 28)) true); reflexivity.
  - apply (ac_off_occupied ACController.__init__
             (PyFloat (Py.float_of_int 27)) false); reflexivity.
Defined.

(** C5. Called with [occupied=True] on a controller whose stored state is
    STANDBY, [update_state] returns and stores COOLING when [temp >= 28],
    and returns STANDBY, the stored state unchanged, for every
    [temp < 28]. *)
Theorem ac_standby_occupied (self : ACController.t) (temp : pyval) :
  ACController.state self = "STANDBY" ->
  (Py.ge temp 28 = Return true ->
   ACController.update_state (PyBool true) temp self =
     (Return "COOLING", {| ACController.state := "COOLING" |})) /\
  (Py.lt temp 28 = Return true ->
   ACController.update_state (PyBool true) temp self =
     (Return "STANDBY", {| ACController.state := "STANDBY" |})).
Proof.
  intros Hst.
  rewrite (update_state_from_standby (PyBool true) temp self eq_refl Hst).
  split; intros Hcmp.
  - now rewrite Hcmp.
  - rewrite (lt_true_not_ge _ _ Hcmp). now rewrite (ac_state_eta _ _ Hst).
Qed.

Lemma ac_standby_occupied_witness :
  ACController.update_state (PyBool true) (PyFloat (Py.float_of_int 28))
      {| ACController.state := "STANDBY" |} =
    (Return "COOLING", {| ACController.state := "COOLING" |}) /\
  ACController.update_state (PyBool true) (PyFloat (Py.float_of_int 27))
      {| ACController.state := "STANDBY" |} =
    (Return "STANDBY", {| ACController.state := "STANDBY" |}).
Proof.
  split.
  - apply (ac_standby_occupied
             {| ACController.state := "STANDBY" |}
             (PyFloat (Py.float_of_int 28))); reflexivity.
  - apply (ac_standby_occupied
             {| ACController.state := "STANDBY" |}
             (PyFloat (Py.float_of_int 27))); reflexivity.
Defined.

(** ** ACController: sequences of calls *)

Section ACSequences.

Import ACTrace.

Lemma run_snoc (calls : list call) (c : call) (self : ACController.t) :
  run (calls ++ [c])%list self = step (run calls self) c.
Proof. unfold run. now rewrite fold_left_app. Qed.

Lemma step_unoccupied (self : ACController.t) (c : call) :
  occupied c = false -> ACController.state (step self c) = "OFF".
Proof.
  intros Hocc. unfold step. rewrite Hocc.
  now rewrite update_state_unoccupied.
Qed.

(** One call that holds the cooling leaves the object as it is. *)
Lemma step_holds_cooling (self : ACController.t) (c : call) :
  ACController.state self = "COOLING" ->
  holds_cooling c ->
  step self c = self.
Proof.
  intros Hst [Hocc Hlt]. unfold step. rewrite Hocc.
  rewrite (update_state_from_cooling (PyBool true) _ self eq_refl Hst).
  destruct (Py.lt (temp c) 24) as [[ | ]|e]; [congruence | reflexivity ..].
Qed.

Lemma run_holds_cooling (later : list call) (self : ACController.t) :
  ACController.state self = "COOLING" ->
  Forall holds_cooling later ->
  run later self = self.
Proof.
  intros Hst Hall. induction Hall as [ | c later Hc _ IH]; [reflexivity | ].
  unfold run. simpl. now rewrite (step_holds_cooling self c Hst Hc).
Qed.

(** The stored state never leaves the three names of the class. *)
Lemma step_state_name (self : ACController.t) (c : call) :
  ac_state_name (ACController.state self) ->
  ac_state_name (ACController.state (step self c)).
Proof.
  unfold ac_state_name, step. intros Hname.
  destruct (occupied c) eqn:Hocc.
  - destruct Hname as [Hst | [Hst | Hst]].
    + rewrite (update_state_from_off (PyBool true) _ self eq_refl Hst).
      destruct (Py.ge (temp c) 28) as [[ | ]|e]; simpl; auto.
    + rewrite (update_state_from_standby (PyBool true) _ self eq_refl Hst).
      destruct (Py.ge (temp c) 28) as [[ | ]|e]; simpl; auto.
    + rewrite (update_state_from_cooling (PyBool true) _ self eq_refl Hst).
      destruct (Py.lt (temp c) 24) as [[ | ]|e]; simpl; auto.
  - rewrite update_state_unoccupied by reflexivity. simpl. auto.
Qed.

Lemma run_state_name (calls : list call) (self : ACController.t) :
  ac_state_name (ACController.state self) ->
  ac_state_name (ACController.state (run calls self)).
Proof.
  revert self. induction calls as [ | c calls IH]; intros self Hname.
  - exact Hname.
  - apply (IH (step self c)). now apply step_state_name.
Qed.

End ACSequences.

(** C3. On a controller that starts in OFF, whenever the stored state is
    COOLING after a sequence of [update_state] calls, that sequence is not
    empty and its last call had [occupied=True]; and from there the stored
    state stays COOLING through every further run of calls none of which
    has [occupied=False] or [temp < 24]. *)
Theorem ac_cooling_invariant (calls later : list ACTrace.call) :
  ACController.state (ACTrace.run calls ACController.__init__) = "COOLING" ->
  Forall ACTrace.holds_cooling later ->
  (exists before c,
      calls = (before ++ [c])%list /\ ACTrace.occupied c = true) /\
  ACController.state
    (ACTrace.run later (ACTrace.run calls ACController.__init__)) = "COOLING".
Proof.
  intros Hst Hall. split.
  - revert Hst.
    induction calls as [ | c0 calls0 _] using rev_ind; intros Hst;
      [discriminate Hst | ].
    exists calls0, c0. split; [reflexivity | ].
    rewrite run_snoc in Hst.
    destruct (ACTrace.occupied c0) eqn:Hocc; [reflexivity | ].
    rewrite (step_unoccupied _ _ Hocc) in Hst. discriminate Hst.
  - now rewrite (run_holds_cooling later _ Hst Hall).
Qed.

Lemma ac_cooling_invariant_witness :
  (exists before c,
      [ACTrace.Build_call false (PyFloat (Py.float_of_int 30));
       ACTrace.Build_call true (PyFloat (Py.float_of_int 30))]
      = (before ++ [c])%list /\ ACTrace.occupied c = true) /\
  ACController.state
    (ACTrace.run
       [ACTrace.Build_call true (PyFloat (Py.float_of_int 26));
        ACTrace.Build_call true (PyFloat (Py.float_of_int 24));
        ACTrace.Build_call true PyNone]
       (ACTrace.run
          [ACTrace.Build_call false (PyFloat (Py.float_of_int 30));
           ACTrace.Build_call true (PyFloat (Py.float_of_int 30))]
          ACController.__init__)) = "COOLING".
Proof.
  apply (ac_cooling_invariant
           [ACTrace.Build_call false (PyFloat (Py.float_of_int 30));
            ACTrace.Build_call true (PyFloat (Py.float_of_int 30))]
           [ACTrace.Build_call true (PyFloat (Py.float_of_int 26));
            ACTrace.Build_call true (PyFloat (Py.float_of_int 24));
            ACTrace.Build_call true PyNone]).
  - reflexivity.
  - repeat constructor; discriminate.
Defined.

(** ** LightController *)

Lemma light_update_state_bool_int
    (self : LightController.t) (occupied : bool) (light_level : Z) :
  LightController.update_state (PyBool occupied) (PyInt light_level) self =
    let s := if occupied && (light_level <? 300) then "ON" else "OFF" in
    (Return s, {| LightController.state := s |}).
Proof.
  unfold LightController.update_state, Py.bind, Py.eval, Py.ret, Py.lt.
  destruct occupied; simpl; [ | reflexivity].
  rewrite Z.ltb_compare.
  now destruct (light_level ?= 300).
Qed.

(** C6. Whatever the stored state, [update_state] on a [bool] and an
    [int] returns and stores ON exactly when [occupied] is true and
    [light_level < 300], and OFF in every other case; the result does not
    depend on the stored state, and at 299 and 300 with [occupied=True] it
    is ON and OFF. *)
Theorem light_on_iff_occupied_and_dark
    (self : LightController.t) (occupied : bool) (light_level : Z) :
  (LightController.update_state (PyBool occupied) (PyInt light_level) self =
     (Return "ON", {| LightController.state := "ON" |})
   <-> occupied = true /\ light_level < 300) /\
  (~ (occupied = true /\ light_level < 300) ->
   LightController.update_state (PyBool occupied) (PyInt light_level) self =
     (Return "OFF", {| LightController.state := "OFF" |})) /\
  (forall other : LightController.t,
      LightController.update_state (PyBool occupied) (PyInt light_level) self =
      LightController.update_state (PyBool occupied) (PyInt light_level) other) /\
  LightController.update_state (PyBool true) (PyInt 299) self =
    (Return "ON", {| LightController.state := "ON" |}) /\
  LightController.update_state (PyBool true) (PyInt 300) self =
    (Return "OFF", {| LightController.state := "OFF" |}).
Proof.
  split; [ | split; [ | split; [ | split]]].
  - rewrite light_update_state_bool_int. split.
    + intros Hon. destruct occupied; simpl in Hon; [ | discriminate Hon].
      destruct (Z.ltb_spec light_level 300); [now split | discriminate Hon].
    + intros [-> Hlt]. simpl.
      destruct (Z.ltb_spec light_level 300); [reflexivity | lia].
  - intros Hnot. rewrite light_update_state_bool_int.
    destruct occupied; simpl; [ | reflexivity].
    destruct (Z.ltb_spec light_level 300); [ | reflexivity].
    exfalso. apply Hnot. now split.
  - intros other. now rewrite !light_update_state_bool_int.
  - now rewrite light_update_state_bool_int.
  - now rewrite light_update_state_bool_int.
Qed.

(** ** RoomController.update *)

Lemma eq_str_true (v : pyval) (s : string) :
  Py.eq_str v s = true <-> v = PyStr s.
Proof.
  destruct v as [ | b | z | f | s']; simpl;
    try (split; [discriminate | intros H; discriminate H]).
  rewrite String.eqb_eq. split; congruence.
Qed.

Lemma eq_str_false (v : pyval) (s : string) :
  v <> PyStr s -> Py.eq_str v s = false.
Proof.
  intros Hne. destruct (Py.eq_str v s) eqn:Heq; [ | reflexivity].
  now apply eq_str_true in Heq.
Qed.

Section RoomUpdate.

Import RoomController.

Variables (self : t) (sensor_data : gmap string pyval).

(** The tag the dispatch reads is not one of the three it knows. *)
Lemma update_unknown_stype :
  dict_get sensor_data "sensor_type" <> PyStr "temperature" ->
  dict_get sensor_data "sensor_type" <> PyStr "pir" ->
  dict_get sensor_data "sensor_type" <> PyStr "ldr" ->
  update sensor_data self = (Return tt, self).
Proof.
  intros Ht Hp Hl. unfold update.
  now rewrite (eq_str_false _ _ Ht), (eq_str_false _ _ Hp),
    (eq_str_false _ _ Hl).
Qed.

Lemma update_temperature :
  sensor_data !! "sensor_type" = Some (PyStr "temperature") ->
  update sensor_data self =
    match sensor_data !! "value" with
    | Some v => set_current_temp v self
    | None => (Raise (KeyError "value"), self)
    end.
Proof.
  intros Htag. unfold update, dict_get, dict_getitem, Py.bind, Py.eval.
  rewrite Htag. simpl.
  now destruct (sensor_data !! "value").
Qed.

Lemma update_pir :
  sensor_data !! "sensor_type" = Some (PyStr "pir") ->
  update sensor_data self =
    match sensor_data !! "occupied" with
    | Some v => set_is_occupied v self
    | None => (Raise (KeyError "occupied"), self)
    end.
Proof.
  intros Htag. unfold update, dict_get, dict_getitem, Py.bind, Py.eval.
  rewrite Htag. simpl.
  now destruct (sensor_data !! "occupied").
Qed.

Lemma update_ldr :
  sensor_data !! "sensor_type" = Some (PyStr "ldr") ->
  update sensor_data self =
    match sensor_data !! "value" with
    | Some v => set_current_light_level v self
    | None => (Raise (KeyError "value"), self)
    end.
Proof.
  intros Htag. unfold update, dict_get, dict_getitem, Py.bind, Py.eval.
  rewrite Htag. simpl.
  now destruct (sensor_data !! "value").
Qed.

End RoomUpdate.

(** C7. A reading tagged 'temperature' overwrites the cached temperature
    with its 'value', one tagged 'pir' the cached occupancy flag with its
    'occupied', one tagged 'ldr' the cached light level with its 'value';
    each leaves every other attribute of the room (the other two cached
    values, the name, both controllers) as it was.  A reading with any
    other tag returns normally and leaves the whole room as it was. *)
Theorem room_update_overwrites_one
    (self : RoomController.t) (sensor_data : gmap string pyval) :
  (forall v,
      sensor_data !! "sensor_type" = Some (PyStr "temperature") ->
      sensor_data !! "value" = Some v ->
      RoomController.update sensor_data self =
        (Return tt,
         {| RoomController.room_name := RoomController.room_name self;
            RoomController.ac := RoomController.ac self;
            RoomController.lights := RoomController.lights self;
            RoomController.current_temp := v;
            RoomController.is_occupied := RoomController.is_occupied self;
            RoomController.current_light_level :=
              RoomController.current_light_level self;
            RoomController.manual_ac_override :=
              RoomController.manual_ac_override self;
            RoomController.manual_light_override :=
              RoomController.manual_light_override self |})) /\
  (forall v,
      sensor_data !! "sensor_type" = Some (PyStr "pir") ->
      sensor_data !! "occupied" = Some v ->
      RoomController.update sensor_data self =
        (Return tt,
         {| RoomController.room_name := RoomController.room_name self;
            RoomController.ac := RoomController.ac self;
            RoomController.lights := RoomController.lights self;
            RoomController.current_temp := RoomController.current_temp self;
            RoomController.is_occupied := v;
            RoomController.current_light_level :=
              RoomController.current_light_level self;
            RoomController.manual_ac_override :=
              RoomController.manual_ac_override self;
            RoomController.manual_light_override :=
              RoomController.manual_light_override self |})) /\
  (forall v,
      sensor_data !! "sensor_type" = Some (PyStr "ldr") ->
      sensor_data !! "value" = Some v ->
      RoomController.update sensor_data self =
        (Return tt,
         {| RoomController.room_name := RoomController.room_name self;
            RoomController.ac := RoomController.ac self;
            RoomController.lights := RoomController.lights self;
            RoomController.current_temp := RoomController.current_temp self;
            RoomController.is_occupied := RoomController.is_occupied self;
            RoomController.current_light_level := v;
            RoomController.manual_ac_override :=
              RoomController.manual_ac_override self;
            RoomController.manual_light_override :=
              RoomController.manual_light_override self |})) /\
  (forall tag,
      sensor_data !! "sensor_type" = Some tag ->
      tag <> PyStr "temperature" -> tag <> PyStr "pir" -> tag <> PyStr "ldr" ->
      RoomController.update sensor_data self = (Return tt, self)).
Proof.
  split; [ | split; [ | split]].
  - intros v Htag Hval. now rewrite update_temperature, Hval.
  - intros v Htag Hval. now rewrite update_pir, Hval.
  - intros v Htag Hval. now rewrite update_ldr, Hval.
  - intros tag Htag Ht Hp Hl.
    apply update_unknown_stype; unfold RoomController.dict_get;
      now rewrite Htag.
Qed.

Lemma room_update_overwrites_one_witness :
  RoomController.current_temp
    (snd (RoomController.update
            {[ "sensor_type" := PyStr "temperature";
               "value" := PyFloat (Py.float_of_int 29) ]}
            (RoomController.__init__ "Living Room")))
  = PyFloat (Py.float_of_int 29) /\
  RoomController.is_occupied
    (snd (RoomController.update
            {[ "sensor_type" := PyStr "pir"; "occupied" := PyBool true ]}
            (RoomController.__init__ "Living Room")))
  = PyBool true /\
  RoomController.current_light_level
    (snd (RoomController.update
            {[ "sensor_type" := PyStr "ldr"; "value" := PyInt 50 ]}
            (RoomController.__init__ "Living Room")))
  = PyInt 50 /\
  RoomController.update
    {[ "sensor_type" := PyStr "humidity"; "value" := PyInt 40 ]}
    (RoomController.__init__ "Living Room")
  = (Return tt, RoomController.__init__ "Living Room").
Proof.
  split; [ | split; [ | split]].
  - rewrite (proj1 (room_update_overwrites_one
                      (RoomController.__init__ "Living Room")
                      {[ "sensor_type" := PyStr "temperature";
                         "value" := PyFloat (Py.float_of_int 29) ]})
               (PyFloat (Py.float_of_int 29)));
      reflexivity.
  - rewrite (proj1 (proj2 (room_update_overwrites_one
                      (RoomController.__init__ "Living Room")
                      {[ "sensor_type" := PyStr "pir";
                         "occupied" := PyBool true ]}))
               (PyBool true));
      reflexivity.
  - rewrite (proj1 (proj2 (proj2 (room_update_overwrites_one
                      (RoomController.__init__ "Living Room")
                      {[ "sensor_type" := PyStr "ldr";
                         "value" := PyInt 50 ]})))
               (PyInt 50));
      reflexivity.
  - apply (proj2 (proj2 (proj2 (room_update_overwrites_one
                      (RoomController.__init__ "Living Room")
                      {[ "sensor_type" := PyStr "humidity";
                         "value" := PyInt 40 ]})))
             (PyStr "humidity")); [reflexivity | discriminate ..].
Defined.

(** C8. A reading with one of the three known tags but without the field
    that tag reads ('value' for 'temperature' and 'ldr', 'occupied' for
    'pir') makes [update] raise [KeyError] on that field, and the room,
    its three cached values included, is as it was before the call. *)
Theorem room_update_missing_field
    (self : RoomController.t) (sensor_data : gmap string pyval) :
  (sensor_data !! "sensor_type" = Some (PyStr "temperature") ->
   sensor_data !! "value" = None ->
   RoomController.update sensor_data self = (Raise (KeyError "value"), self)) /\
  (sensor_data !! "sensor_type" = Some (PyStr "pir") ->
   sensor_data !! "occupied" = None ->
   RoomController.update sensor_data self =
     (Raise (KeyError "occupied"), self)) /\
  (sensor_data !! "sensor_type" = Some (PyStr "ldr") ->
   sensor_data !! "value" = None ->
   RoomController.update sensor_data self = (Raise (KeyError "value"), self)).
Proof.
  split; [ | split]; intros Htag Hval.
  - now rewrite update_temperature, Hval.
  - now rewrite update_pir, Hval.
  - now rewrite update_ldr, Hval.
Qed.

Lemma room_update_missing_field_witness :
  RoomController.update
    {[ "sensor_type" := PyStr "temperature"; "occupied" := PyBool true ]}
    (RoomController.__init__ "Living Room")
  = (Raise (KeyError "value"), RoomController.__init__ "Living Room") /\
  RoomController.update
    {[ "sensor_type" := PyStr "pir"; "value" := PyInt 1 ]}
    (RoomController.__init__ "Living Room")
  = (Raise (KeyError "occupied"), RoomController.__init__ "Living Room") /\
  RoomController.update
    {[ "sensor_type" := PyStr "ldr" ]}
    (RoomController.__init__ "Living Room")
  = (Raise (KeyError "value"), RoomController.__init__ "Living Room").
Proof.
  split; [ | split].
  - apply (proj1 (room_update_missing_field
                    (RoomController.__init__ "Living Room")
                    {[ "sensor_type" := PyStr "temperature";
                       "occupied" := PyBool true ]})); reflexivity.
  - apply (proj1 (proj2 (room_update_missing_field
                    (RoomController.__init__ "Living Room")
                    {[ "sensor_type" := PyStr "pir";
                       "value" := PyInt 1 ]}))); reflexivity.
  - apply (proj2 (proj2 (room_update_missing_field
                    (RoomController.__init__ "Living Room")
                    {[ "sensor_type" := PyStr "ldr" ]}))); reflexivity.
Defined.

(** C10. A reading with no 'sensor_type' key at all makes [update] return
    normally and leaves the room, its three cached values included, as it
    was: [get] answers [None], which equals none of the three tags. *)
Theorem room_update_no_sensor_type
    (self : RoomController.t) (sensor_data : gmap string pyval) :
  sensor_data !! "sensor_type" = None ->
  RoomController.update sensor_data self = (Return tt, self).
Proof.
  intros Htag.
  apply update_unknown_stype; unfold RoomController.dict_get;
    rewrite Htag; discriminate.
Qed.

Lemma room_update_no_sensor_type_witness :
  RoomController.update
    {[ "value" := PyFloat (Py.float_of_int 29); "occupied" := PyBool true ]}
    (RoomController.__init__ "Living Room")
  = (Return tt, RoomController.__init__ "Living Room").
Proof.
  apply (room_update_no_sensor_type
           (RoomController.__init__ "Living Room")
           {[ "value" := PyFloat (Py.float_of_int 29);
              "occupied" := PyBool true ]}).
  reflexivity.
Defined.

(** ** RoomController: construction and the three-reading scenario *)

(** C9. A room built with any name caches 20.0, [False] and 500 and holds
    both controllers in OFF.  After [update] has received a 'pir' reading
    with [occupied=True], a 'temperature' reading with value 29.0 and an
    'ldr' reading with value 50, [ac.update_state(is_occupied,
    current_temp)] returns COOLING and
    [lights.update_state(is_occupied, current_light_level)] returns ON. *)
Theorem room_scenario_cooling_on
    (room_name : string) (occupancy temperature light : gmap string pyval) :
  occupancy !! "sensor_type" = Some (PyStr "pir") ->
  occupancy !! "occupied" = Some (PyBool true) ->
  temperature !! "sensor_type" = Some (PyStr "temperature") ->
  temperature !! "value" = Some (PyFloat (Py.float_of_int 29)) ->
  light !! "sensor_type" = Some (PyStr "ldr") ->
  light !! "value" = Some (PyInt 50) ->
  let room := RoomController.__init__ room_name in
  (RoomController.current_temp room = PyFloat (Py.float_of_int 20) /\
   RoomController.is_occupied room = PyBool false /\
   RoomController.current_light_level room = PyInt 500 /\
   ACController.state (RoomController.ac room) = "OFF" /\
   LightController.state (RoomController.lights room) = "OFF") /\
  exists room',
    (RoomController.update occupancy ;;
     RoomController.update temperature ;;
     RoomController.update light)%py room = (Return tt, room') /\
    ACController.update_state
      (RoomController.is_occupied room') (RoomController.current_temp room')
      (RoomController.ac room')
    = (Return "COOLING", {| ACController.state := "COOLING" |}) /\
    LightController.update_state
      (RoomController.is_occupied room')
      (RoomController.current_light_level room')
      (RoomController.lights room')
    = (Return "ON", {| LightController.state := "ON" |}).
Proof.
  intros Hot Hov Htt Htv Hlt Hlv room.
  split; [now repeat split | ].
  unfold Py.bind.
  rewrite update_pir by assumption. rewrite Hov. simpl.
  rewrite update_temperature by assumption. rewrite Htv. simpl.
  rewrite update_ldr by assumption. rewrite Hlv. simpl.
  eexists. split; [reflexivity | ]. split; reflexivity.
Qed.

Lemma room_scenario_cooling_on_witness :
  exists room',
    (RoomController.update
       {[ "sensor_type" := PyStr "pir"; "occupied" := PyBool true ]} ;;
     RoomController.update
       {[ "sensor_type" := PyStr "temperature";
          "value" := PyFloat (Py.float_of_int 29) ]} ;;
     RoomController.update
       {[ "sensor_type" := PyStr "ldr"; "value" := PyInt 50 ]})%py
      (RoomController.__init__ "Living Room") = (Return tt, room') /\
    ACController.update_state
      (RoomController.is_occupied room') (RoomController.current_temp room')
      (RoomController.ac room')
    = (Return "COOLING", {| ACController.state := "COOLING" |}) /\
    LightController.update_state
      (RoomController.is_occupied room')
      (RoomController.current_light_level room')
      (RoomController.lights room')
    = (Return "ON", {| LightController.state := "ON" |}).
Proof.
  apply (room_scenario_cooling_on "Living Room"
           {[ "sensor_type" := PyStr "pir"; "occupied" := PyBool true ]}
           {[ "sensor_type" := PyStr "temperature";
              "value" := PyFloat (Py.float_of_int 29) ]}
           {[ "sensor_type" := PyStr "ldr"; "value" := PyInt 50 ]});
    reflexivity.
Defined.

(** ** Worked examples *)

(** 20.0, the default temperature, as a binary64 number. *)
Example float_20 :
  Py.float_of_int 20 = S754_finite false 5629499534213120 (-48) /\
  valid_binary 53 1024 (Py.float_of_int 20) = true /\
  Py.float_compare_int (Py.float_of_int 20) 20 = Some Eq.
Proof. repeat split. Qed.

(** Occupied throughout, temperatures 30, 26, 24.1 and 23.9 in turn:
    COOLING, COOLING, COOLING, STANDBY. *)
Example ac_hysteresis_sequence :
  let t30 := PyInt 30 in
  let t26 := PyInt 26 in
  let t24_1 := PyFloat (S754_finite false 6783546938726810 (-48)) in
  let t23_9 := PyFloat (S754_finite false 6727251943385678 (-48)) in
  let ac1 := ACController.update_state (PyBool true) t30 ACController.__init__ in
  let ac2 := ACController.update_state (PyBool true) t26 (snd ac1) in
  let ac3 := ACController.update_state (PyBool true) t24_1 (snd ac2) in
  let ac4 := ACController.update_state (PyBool true) t23_9 (snd ac3) in
  [fst ac1; fst ac2; fst ac3; fst ac4] =
    [Return "COOLING"; Return "COOLING"; Return "COOLING"; Return "STANDBY"].
Proof. reflexivity. Qed.

(** A light controller keeps no memory: ON, OFF, ON. *)
Example light_no_memory :
  let l1 := LightController.update_state (PyBool true) (PyInt 100)
              LightController.__init__ in
  let l2 := LightController.update_state (PyBool false) (PyInt 100) (snd l1) in
  let l3 := LightController.update_state (PyBool true) (PyInt 100) (snd l2) in
  [fst l1; fst l2; fst l3] = [Return "ON"; Return "OFF"; Return "ON"].
Proof. reflexivity. Qed.

(** An argument that cannot be ordered against an int raises, and the
    controller keeps its state. *)
Example ac_temp_none_raises :
  ACController.update_state (PyBool true) PyNone ACController.__init__ =
    (Raise TypeError, ACController.__init__).
Proof. reflexivity. Qed.

(** A NaN is neither [< 24] nor [>= 28]: a cooling controller keeps
    cooling and an idle one goes to STANDBY. *)
Example ac_temp_nan :
  ACController.update_state (PyBool true) (PyFloat S754_nan)
      {| ACController.state := "COOLING" |} =
    (Return "COOLING", {| ACController.state := "COOLING" |}) /\
  ACController.update_state (PyBool true) (PyFloat S754_nan)
      ACController.__init__ =
    (Return "STANDBY", {| ACController.state := "STANDBY" |}).
Proof. split; reflexivity. Qed.

(** * Further properties of the control layer *)

(** ** The two thresholds of a comparison chain *)

Lemma Z_compare_above (a lo hi : Z) :
  lo < hi -> (a ?= hi) <> Lt -> (a ?= lo) = Gt.
Proof.
  intros Hlt Hcmp. apply Z.compare_gt_iff.
  destruct (Z.compare_spec a hi); [lia | congruence | lia].
Qed.

Lemma float_compare_int_above (f : spec_float) (lo hi : Z) (c : comparison) :
  lo < hi ->
  Py.float_compare_int f hi = Some c -> c <> Lt ->
  Py.float_compare_int f lo = Some Gt.
Proof.
  intros Hlt. destruct f as [s | s | | s m e]; cbn [Py.float_compare_int].
  - intros [= <-] Hc. f_equal. now apply Z_compare_above with hi.
  - destruct s; intros [= <-] Hc; congruence.
  - discriminate.
  - intros [= <-] Hc. f_equal. destruct (Z.leb_spec 0 e).
    + now apply Z_compare_above with hi.
    + assert (Hpow : 0 < 2 ^ (- e)) by (apply Z.pow_pos_nonneg; lia).
      apply Z_compare_above with (hi * 2 ^ (- e)); [ | exact Hc].
      now apply Z.mul_lt_mono_pos_r.
Qed.

Lemma compare_int_above (v : pyval) (lo hi : Z) (c : comparison) :
  lo < hi ->
  Py.compare_int v hi = Return (Some c) -> c <> Lt ->
  Py.compare_int v lo = Return (Some Gt).
Proof.
  intros Hlt. destruct v as [ | b | z | f | s]; cbn [Py.compare_int];
    try discriminate.
  - intros [= <-] Hc. do 2 f_equal. now apply Z_compare_above with hi.
  - intros [= <-] Hc. do 2 f_equal. now apply Z_compare_above with hi.
  - intros [= Hf] Hc. f_equal. now apply float_compare_int_above with hi c.
Qed.

Lemma ge_hi_not_lt_lo (v : pyval) (lo hi : Z) :
  lo < hi -> Py.ge v hi = Return true -> Py.lt v lo = Return false.
Proof.
  intros Hlt. unfold Py.ge, Py.lt.
  destruct (Py.compare_int v hi) as [[c | ]|e] eqn:Hhi; try discriminate.
  intros Hge.
  rewrite (compare_int_above v lo hi c Hlt Hhi); [reflexivity | ].
  now destruct c.
Qed.

Lemma lt_lo_not_ge_hi (v : pyval) (lo hi : Z) :
  lo < hi -> Py.lt v lo = Return true -> Py.ge v hi = Return false.
Proof.
  intros Hlt Hlo.
  destruct (Py.ge v hi) as [[ | ]|e] eqn:Hhi; [ | reflexivity | ].
  - rewrite (ge_hi_not_lt_lo v lo hi Hlt Hhi) in Hlo. discriminate Hlo.
  - unfold Py.ge, Py.lt in *.
    destruct v as [ | b | z | f | s]; cbn [Py.compare_int] in *;
      [ discriminate Hlo
      | destruct (Z.b2z b ?= hi); discriminate Hhi
      | destruct (z ?= hi); discriminate Hhi
      | destruct (Py.float_compare_int f hi) as [[ | | ]| ]; discriminate Hhi
      | discriminate Hlo ].
Qed.

(** ** ACController: errors, odd states and repeated calls *)

Lemma update_state_from_unknown
    (occupied temp : pyval) (self : ACController.t) :
  Py.truthy occupied = true ->
  ~ ACTrace.ac_state_name (ACController.state self) ->
  ACController.update_state occupied temp self =
    (Return (ACController.state self), self).
Proof.
  intros Hocc Hname. unfold ACTrace.ac_state_name in Hname.
  unfold ACController.update_state, Py.bind, ACController.get_state.
  rewrite Hocc. simpl.
  destruct (String.eqb_spec (ACController.state self) "OFF"); [tauto | ].
  destruct (String.eqb_spec (ACController.state self) "STANDBY"); [tauto | ].
  destruct (String.eqb_spec (ACController.state self) "COOLING"); [tauto | ].
  reflexivity.
Qed.

Lemma ac_state_name_dec (s : string) :
  ACTrace.ac_state_name s \/ ~ ACTrace.ac_state_name s.
Proof.
  unfold ACTrace.ac_state_name.
  destruct (String.eqb_spec s "OFF"); [tauto | ].
  destruct (String.eqb_spec s "STANDBY"); [tauto | ].
  destruct (String.eqb_spec s "COOLING"); tauto.
Qed.

(** X1. With a truthy [occupied] and a stored state among the three
    names, a temperature that cannot be ordered against an int ([None] or
    a string) makes [update_state] raise [TypeError], and the controller
    keeps the state it had. *)
Theorem ac_unorderable_temp_raises
    (occupied temp : pyval) (self : ACController.t) :
  Py.truthy occupied = true ->
  ACTrace.ac_state_name (ACController.state self) ->
  temp = PyNone \/ (exists s, temp = PyStr s) ->
  ACController.update_state occupied temp self = (Raise TypeError, self).
Proof.
  intros Hocc Hname Htemp.
  assert (Hge : Py.ge temp 28 = Raise TypeError)
    by (destruct Htemp as [-> | [s ->]]; reflexivity).
  assert (Hlt : Py.lt temp 24 = Raise TypeError)
    by (destruct Htemp as [-> | [s ->]]; reflexivity).
  destruct Hname as [Hst | [Hst | Hst]].
  - now rewrite (update_state_from_off _ _ _ Hocc Hst), Hge.
  - now rewrite (update_state_from_standby _ _ _ Hocc Hst), Hge.
  - now rewrite (update_state_from_cooling _ _ _ Hocc Hst), Hlt.
Qed.

Lemma ac_unorderable_temp_raises_witness :
  ACController.update_state (PyInt 1) (PyStr "29.0")
      {| ACController.state := "STANDBY" |} =
    (Raise TypeError, {| ACController.state := "STANDBY" |}).
Proof.
  apply (ac_unorderable_temp_raises (PyInt 1) (PyStr "29.0")
           {| ACController.state := "STANDBY" |}).
  - reflexivity.
  - right. left. reflexivity.
  - right. exists "29.0". reflexivity.
Defined.

(** X2. A stored state that is none of OFF, STANDBY and COOLING falls
    through every branch: with a truthy [occupied] the call returns that
    state, changes nothing and never compares the temperature, so it
    cannot raise. *)
Theorem ac_unknown_state_kept
    (occupied temp : pyval) (self : ACController.t) :
  Py.truthy occupied = true ->
  ACController.state self <> "OFF" ->
  ACController.state self <> "STANDBY" ->
  ACController.state self <> "COOLING" ->
  ACController.update_state occupied temp self =
    (Return (ACController.state self), self).
Proof.
  intros Hocc Hoff Hstandby Hcooling.
  apply update_state_from_unknown; [exact Hocc | ].
  unfold ACTrace.ac_state_name. tauto.
Qed.

Lemma ac_unknown_state_kept_witness :
  ACController.update_state (PyBool true) PyNone
      {| ACController.state := "HEATING" |} =
    (Return "HEATING", {| ACController.state := "HEATING" |}).
Proof.
  apply (ac_unknown_state_kept (PyBool true) PyNone
           {| ACController.state := "HEATING" |});
    [reflexivity | discriminate ..].
Defined.

(** X3. Whatever the stored state and the temperature, a call with a
    truthy [occupied] that returns never returns OFF, and the value it
    returns is the state it leaves stored: only an empty room switches the
    controller off. *)
Theorem ac_occupied_never_off
    (occupied temp : pyval) (self self' : ACController.t) (s : string) :
  Py.truthy occupied = true ->
  ACController.update_state occupied temp self = (Return s, self') ->
  s <> "OFF" /\ ACController.state self' = s.
Proof.
  intros Hocc.
  destruct (ac_state_name_dec (ACController.state self))
    as [[Hst | [Hst | Hst]] | Hname].
  - rewrite (update_state_from_off _ _ _ Hocc Hst).
    destruct (Py.ge temp 28) as [[ | ]|e]; simpl; intros [= <- <-];
      now split.
  - rewrite (update_state_from_standby _ _ _ Hocc Hst).
    destruct (Py.ge temp 28) as [[ | ]|e]; intros [= <- <-];
      now split.
  - rewrite (update_state_from_cooling _ _ _ Hocc Hst).
    destruct (Py.lt temp 24) as [[ | ]|e]; intros [= <- <-];
      now split.
  - rewrite (update_state_from_unknown _ _ _ Hocc Hname).
    intros [= <- <-]. split; [ | reflexivity].
    unfold ACTrace.ac_state_name in Hname. tauto.
Qed.

Lemma ac_occupied_never_off_witness :
  "STANDBY" <> "OFF" /\
  ACController.state {| ACController.state := "STANDBY" |} = "STANDBY".
Proof.
  apply (ac_occupied_never_off (PyBool true) (PyFloat (Py.float_of_int 23))
           {| ACController.state := "COOLING" |}
           {| ACController.state := "STANDBY" |} "STANDBY");
    reflexivity.
Defined.

(** X4. Calling [update_state] a second time with the same arguments gives
    the same outcome and leaves the same state as the first call: no
    single reading makes the controller move twice. *)
Theorem ac_update_state_idempotent
    (occupied temp : pyval) (self : ACController.t) :
  ACController.update_state occupied temp
    (snd (ACController.update_state occupied temp self)) =
  ACController.update_state occupied temp self.
Proof.
  destruct (Py.truthy occupied) eqn:Hocc;
    [ | now rewrite !update_state_unoccupied].
  destruct (ac_state_name_dec (ACController.state self))
    as [[Hst | [Hst | Hst]] | Hname].
  - rewrite (update_state_from_off _ _ self Hocc Hst).
    destruct (Py.ge temp 28) as [[ | ]|e] eqn:Hge; simpl.
    + rewrite update_state_from_cooling by (exact Hocc || reflexivity).
      now rewrite (ge_hi_not_lt_lo temp 24 28 eq_refl Hge).
    + rewrite update_state_from_standby by (exact Hocc || reflexivity).
      now rewrite Hge.
    + now rewrite (update_state_from_off _ _ self Hocc Hst), Hge.
  - rewrite (update_state_from_standby _ _ self Hocc Hst).
    destruct (Py.ge temp 28) as [[ | ]|e] eqn:Hge; simpl.
    + rewrite update_state_from_cooling by (exact Hocc || reflexivity).
      now rewrite (ge_hi_not_lt_lo temp 24 28 eq_refl Hge).
    + now rewrite (update_state_from_standby _ _ self Hocc Hst), Hge.
    + now rewrite (update_state_from_standby _ _ self Hocc Hst), Hge.
  - rewrite (update_state_from_cooling _ _ self Hocc Hst).
    destruct (Py.lt temp 24) as [[ | ]|e] eqn:Hlt; simpl.
    + rewrite update_state_from_standby by (exact Hocc || reflexivity).
      now rewrite (lt_lo_not_ge_hi temp 24 28 eq_refl Hlt).
    + now rewrite (update_state_from_cooling _ _ self Hocc Hst), Hlt.
    + now rewrite (update_state_from_cooling _ _ self Hocc Hst), Hlt.
  - rewrite (update_state_from_unknown _ _ self Hocc Hname). simpl.
    now rewrite (update_state_from_unknown _ _ self Hocc Hname).
Qed.

(** ** ACController: what a run of calls can reach *)

(** X5. From a new controller, after any sequence of calls (raising ones
    included) the stored state is one of OFF, STANDBY and COOLING. *)
Theorem ac_reachable_state_names (calls : list ACTrace.call) :
  ACTrace.ac_state_name
    (ACController.state (ACTrace.run calls ACController.__init__)).
Proof. apply run_state_name. now left. Qed.

(** X6. A controller that started new is COOLING only if some call of the
    sequence had [occupied=True] and a temperature with [temp >= 28]:
    without such a reading cooling never starts. *)
Theorem ac_cooling_needs_hot_call (calls : list ACTrace.call) :
  ACController.state (ACTrace.run calls ACController.__init__) = "COOLING" ->
  Exists (fun c => ACTrace.occupied c = true /\
                   Py.ge (ACTrace.temp c) 28 = Return true) calls.
Proof.
  induction calls as [ | c calls IH] using rev_ind; [discriminate | ].
  rewrite run_snoc. intros Hst. apply Exists_app.
  pose proof (run_state_name calls ACController.__init__
                (or_introl eq_refl)) as Hname.
  set (self := ACTrace.run calls ACController.__init__) in *.
  unfold ACTrace.step in Hst.
  destruct (ACTrace.occupied c) eqn:Hocc;
    [ | rewrite update_state_unoccupied in Hst by reflexivity;
        discriminate Hst].
  destruct Hname as [Hself | [Hself | Hself]].
  - rewrite (update_state_from_off (PyBool true) _ self eq_refl Hself) in Hst.
    destruct (Py.ge (ACTrace.temp c) 28) as [[ | ]|e] eqn:Hge;
      simpl in Hst; try congruence.
    right. constructor. now split.
  - rewrite (update_state_from_standby (PyBool true) _ self eq_refl Hself)
      in Hst.
    destruct (Py.ge (ACTrace.temp c) 28) as [[ | ]|e] eqn:Hge;
      simpl in Hst; try congruence.
    right. constructor. now split.
  - left. now apply IH.
Qed.

Lemma ac_cooling_needs_hot_call_witness :
  Exists (fun c => ACTrace.occupied c = true /\
                   Py.ge (ACTrace.temp c) 28 = Return true)
    [ACTrace.Build_call true (PyInt 30);
     ACTrace.Build_call true (PyInt 25)].
Proof.
  apply (ac_cooling_needs_hot_call
           [ACTrace.Build_call true (PyInt 30);
            ACTrace.Build_call true (PyInt 25)]).
  reflexivity.
Defined.

(** X7. After a non-empty sequence of calls on a new controller whose
    last call carried a number as temperature, the controller is OFF
    exactly when that last call had [occupied=False]. *)
Theorem ac_off_iff_last_unoccupied
    (before : list ACTrace.call) (c : ACTrace.call) :
  (exists b, ACTrace.temp c = PyBool b) \/
  (exists z, ACTrace.temp c = PyInt z) \/
  (exists f, ACTrace.temp c = PyFloat f) ->
  ACController.state
    (ACTrace.run (before ++ [c])%list ACController.__init__) = "OFF"
  <-> ACTrace.occupied c = false.
Proof.
  intros Hnum. rewrite run_snoc.
  destruct (compare_number_returns (ACTrace.temp c) 28 Hnum)
    as [[ge28 Hge] _].
  destruct (compare_number_returns (ACTrace.temp c) 24 Hnum)
    as [_ [lt24 Hlt]].
  pose proof (run_state_name before ACController.__init__
                (or_introl eq_refl)) as Hname.
  set (self := ACTrace.run before ACController.__init__) in *.
  split; [ | apply step_unoccupied].
  unfold ACTrace.step.
  destruct (ACTrace.occupied c); [ | reflexivity].
  destruct Hname as [Hself | [Hself | Hself]].
  - rewrite (update_state_from_off (PyBool true) _ self eq_refl Hself), Hge.
    destruct ge28; discriminate.
  - rewrite (update_state_from_standby (PyBool true) _ self eq_refl Hself),
      Hge.
    destruct ge28; simpl; congruence.
  - rewrite (update_state_from_cooling (PyBool true) _ self eq_refl Hself),
      Hlt.
    destruct lt24; simpl; congruence.
Qed.

Lemma ac_off_iff_last_unoccupied_witness :
  ACController.state
    (ACTrace.run
       ([ACTrace.Build_call true (PyInt 30)]
        ++ [ACTrace.Build_call false (PyInt 30)])%list
       ACController.__init__) = "OFF"
  <-> ACTrace.occupied (ACTrace.Build_call false (PyInt 30)) = false.
Proof.
  apply (ac_off_iff_last_unoccupied
           [ACTrace.Build_call true (PyInt 30)]
           (ACTrace.Build_call false (PyInt 30))).
  right. left. exists 30. reflexivity.
Defined.

(** ** LightController: when the light level is looked at *)

(** X8. A light level that cannot be ordered against an int ([None] or a
    string) is only noticed in an occupied room: with a truthy [occupied]
    the call raises [TypeError] and the stored state is kept, with a falsy
    one the comparison is skipped and the call stores and returns OFF. *)
Theorem light_level_compared_only_when_occupied
    (occupied light_level : pyval) (self : LightController.t) :
  light_level = PyNone \/ (exists s, light_level = PyStr s) ->
  LightController.update_state occupied light_level self =
    if Py.truthy occupied
    then (Raise TypeError, self)
    else (Return "OFF", {| LightController.state := "OFF" |}).
Proof.
  intros Hlevel.
  assert (Hlt : Py.lt light_level 300 = Raise TypeError)
    by (destruct Hlevel as [-> | [s ->]]; reflexivity).
  unfold LightController.update_state, Py.bind, Py.eval.
  destruct (Py.truthy occupied); [now rewrite Hlt | reflexivity].
Qed.

Lemma light_level_compared_only_when_occupied_witness :
  LightController.update_state (PyBool true) PyNone
      {| LightController.state := "ON" |} =
    (Raise TypeError, {| LightController.state := "ON" |}) /\
  LightController.update_state (PyBool false) PyNone
      {| LightController.state := "ON" |} =
    (Return "OFF", {| LightController.state := "OFF" |}).
Proof.
  split.
  - apply (light_level_compared_only_when_occupied (PyBool true) PyNone
             {| LightController.state := "ON" |}). now left.
  - apply (light_level_compared_only_when_occupied (PyBool false) PyNone
             {| LightController.state := "ON" |}). now left.
Defined.

(** ** RoomController.update: frame and composition *)

Ltac room_update_cases d :=
  let t := fresh "stype" in
  let Ht := fresh "Htemperature" in
  let Hp := fresh "Hpir" in
  let Hl := fresh "Hldr" in
  generalize (RoomController.dict_get d "sensor_type"); intros t;
  destruct (Py.eq_str t "temperature") eqn:Ht;
    [ apply eq_str_true in Ht
    | destruct (Py.eq_str t "pir") eqn:Hp;
      [ apply eq_str_true in Hp
      | destruct (Py.eq_str t "ldr") eqn:Hl;
        [ apply eq_str_true in Hl | ] ] ].

(** X9. Whatever the reading, and whether [update] returns or raises, the
    room keeps its name, both controllers with their states, and both
    override attributes: [update] never runs a state machine. *)
Theorem room_update_keeps_controllers
    (self : RoomController.t) (sensor_data : gmap string pyval) :
  let self' := snd (RoomController.update sensor_data self) in
  RoomController.room_name self' = RoomController.room_name self /\
  RoomController.ac self' = RoomController.ac self /\
  RoomController.lights self' = RoomController.lights self /\
  RoomController.manual_ac_override self' =
    RoomController.manual_ac_override self /\
  RoomController.manual_light_override self' =
    RoomController.manual_light_override self.
Proof.
  unfold RoomController.update, RoomController.dict_getitem, Py.bind, Py.eval.
  room_update_cases sensor_data;
    try destruct (sensor_data !! "value");
    try destruct (sensor_data !! "occupied");
    simpl; repeat split.
Qed.

(** X10. Of two accepted readings with the same tag the second one wins:
    delivering both leaves the room exactly as delivering the second
    alone. *)
Theorem room_update_last_wins
    (self : RoomController.t) (first second : gmap string pyval) :
  RoomController.dict_get first "sensor_type" =
    RoomController.dict_get second "sensor_type" ->
  fst (RoomController.update first self) = Return tt ->
  fst (RoomController.update second self) = Return tt ->
  (RoomController.update first ;; RoomController.update second)%py self =
    RoomController.update second self.
Proof.
  unfold RoomController.update, RoomController.dict_getitem, Py.bind, Py.eval.
  intros <-.
  room_update_cases first;
    try destruct (first !! "value");
    try destruct (second !! "value");
    try destruct (first !! "occupied");
    try destruct (second !! "occupied");
    simpl; intros H1 H2; try discriminate; reflexivity.
Qed.

Lemma room_update_last_wins_witness :
  (RoomController.update
     {[ "sensor_type" := PyStr "temperature"; "value" := PyInt 31 ]} ;;
   RoomController.update
     {[ "sensor_type" := PyStr "temperature"; "value" := PyInt 22 ]})%py
    (RoomController.__init__ "Living Room") =
  RoomController.update
    {[ "sensor_type" := PyStr "temperature"; "value" := PyInt 22 ]}
    (RoomController.__init__ "Living Room").
Proof.
  apply (room_update_last_wins (RoomController.__init__ "Living Room")
           {[ "sensor_type" := PyStr "temperature"; "value" := PyInt 31 ]}
           {[ "sensor_type" := PyStr "temperature"; "value" := PyInt 22 ]});
    reflexivity.
Defined.

(** X11. Two accepted readings with different tags can be delivered in
    either order: the room ends up the same. *)
Theorem room_update_commutes
    (self : RoomController.t) (first second : gmap string pyval) :
  RoomController.dict_get first "sensor_type" <>
    RoomController.dict_get second "sensor_type" ->
  fst (RoomController.update first self) = Return tt ->
  fst (RoomController.update second self) = Return tt ->
  (RoomController.update first ;; RoomController.update second)%py self =
  (RoomController.update second ;; RoomController.update first)%py self.
Proof.
  unfold RoomController.update, RoomController.dict_getitem, Py.bind, Py.eval.
  room_update_cases first; room_update_cases second;
    try destruct (first !! "value");
    try destruct (second !! "value");
    try destruct (first !! "occupied");
    try destruct (second !! "occupied");
    simpl; intros Hne H1 H2; try discriminate; try congruence; reflexivity.
Qed.

Lemma room_update_commutes_witness :
  (RoomController.update
     {[ "sensor_type" := PyStr "pir"; "occupied" := PyBool true ]} ;;
   RoomController.update
     {[ "sensor_type" := PyStr "ldr"; "value" := PyInt 120 ]})%py
    (RoomController.__init__ "Living Room") =
  (RoomController.update
     {[ "sensor_type" := PyStr "ldr"; "value" := PyInt 120 ]} ;;
   RoomController.update
     {[ "sensor_type" := PyStr "pir"; "occupied" := PyBool true ]})%py
    (RoomController.__init__ "Living Room").
Proof.
  apply (room_update_commutes (RoomController.__init__ "Living Room")
           {[ "sensor_type" := PyStr "pir"; "occupied" := PyBool true ]}
           {[ "sensor_type" := PyStr "ldr"; "value" := PyInt 120 ]});
    [discriminate | reflexivity ..].
Defined.

(** ** RoomController: cached values driving the controllers *)

(** X12. After a 'pir' reading whose 'occupied' value is falsy,
    [ac.update_state(is_occupied, current_temp)] and
    [lights.update_state(is_occupied, current_light_level)] both return
    OFF, whatever temperature and light level the room has cached (values
    that could not be compared included) and whatever state the two
    controllers were in. *)
Theorem room_unoccupied_switches_off
    (self : RoomController.t) (sensor_data : gmap string pyval) (v : pyval) :
  sensor_data !! "sensor_type" = Some (PyStr "pir") ->
  sensor_data !! "occupied" = Some v ->
  Py.truthy v = false ->
  exists self',
    RoomController.update sensor_data self = (Return tt, self') /\
    ACController.update_state
      (RoomController.is_occupied self') (RoomController.current_temp self')
      (RoomController.ac self')
    = (Return "OFF", {| ACController.state := "OFF" |}) /\
    LightController.update_state
      (RoomController.is_occupied self')
      (RoomController.current_light_level self')
      (RoomController.lights self')
    = (Return "OFF", {| LightController.state := "OFF" |}).
Proof.
  intros Htag Hval Hfalsy.
  rewrite update_pir by assumption. rewrite Hval.
  eexists. split; [reflexivity | ]. simpl. split.
  - now apply update_state_unoccupied.
  - unfold LightController.update_state, Py.bind. now rewrite Hfalsy.
Qed.

Lemma room_unoccupied_switches_off_witness :
  exists self',
    RoomController.update
      {[ "sensor_type" := PyStr "pir"; "occupied" := PyInt 0 ]}
      (RoomController.__init__ "Living Room") = (Return tt, self') /\
    ACController.update_state
      (RoomController.is_occupied self') (RoomController.current_temp self')
      (RoomController.ac self')
    = (Return "OFF", {| ACController.state := "OFF" |}) /\
    LightController.update_state
      (RoomController.is_occupied self')
      (RoomController.current_light_level self')
      (RoomController.lights self')
    = (Return "OFF", {| LightController.state := "OFF" |}).
Proof.
  apply (room_unoccupied_switches_off
           (RoomController.__init__ "Living Room")
           {[ "sensor_type" := PyStr "pir"; "occupied" := PyInt 0 ]}
           (PyInt 0)); reflexivity.
Defined.

(** X13. [update] caches a 'temperature' value without looking at it: a
    value that is [None] or a string is accepted, and the error shows only
    later, when [ac.update_state(is_occupied, current_temp)] is called on
    an occupied room: that call raises [TypeError] and the AC state is
    unchanged. *)
Theorem room_unvalidated_temperature_raises_later
    (self : RoomController.t) (sensor_data : gmap string pyval) (v : pyval) :
  sensor_data !! "sensor_type" = Some (PyStr "temperature") ->
  sensor_data !! "value" = Some v ->
  v = PyNone \/ (exists s, v = PyStr s) ->
  Py.truthy (RoomController.is_occupied self) = true ->
  ACTrace.ac_state_name (ACController.state (RoomController.ac self)) ->
  exists self',
    RoomController.update sensor_data self = (Return tt, self') /\
    RoomController.current_temp self' = v /\
    ACController.update_state
      (RoomController.is_occupied self') (RoomController.current_temp self')
      (RoomController.ac self')
    = (Raise TypeError, RoomController.ac self).
Proof.
  intros Htag Hval Hbad Hocc Hname.
  rewrite update_temperature by assumption. rewrite Hval.
  eexists. split; [reflexivity | ]. simpl. split; [reflexivity | ].
  destruct Hname as [Hst | [Hst | Hst]].
  - rewrite (update_state_from_off _ _ _ Hocc Hst).
    now destruct Hbad as [-> | [s ->]].
  - rewrite (update_state_from_standby _ _ _ Hocc Hst).
    now destruct Hbad as [-> | [s ->]].
  - rewrite (update_state_from_cooling _ _ _ Hocc Hst).
    now destruct Hbad as [-> | [s ->]].
Qed.

Lemma room_unvalidated_temperature_raises_later_witness :
  exists self',
    RoomController.update
      {[ "sensor_type" := PyStr "temperature"; "value" := PyStr "29.0" ]}
      {| RoomController.room_name := "Living Room";
         RoomController.ac := {| ACController.state := "STANDBY" |};
         RoomController.lights := LightController.__init__;
         RoomController.current_temp := PyInt 25;
         RoomController.is_occupied := PyBool true;
         RoomController.current_light_level := PyInt 500;
         RoomController.manual_ac_override := PyNone;
         RoomController.manual_light_override := PyNone |}
    = (Return tt, self') /\
    RoomController.current_temp self' = PyStr "29.0" /\
    ACController.update_state
      (RoomController.is_occupied self') (RoomController.current_temp self')
      (RoomController.ac self')
    = (Raise TypeError, {| ACController.state := "STANDBY" |}).
Proof.
  apply (room_unvalidated_temperature_raises_later
           {| RoomController.room_name := "Living Room";
         RoomController.ac := {| ACController.state := "STANDBY" |};
         RoomController.lights := LightController.__init__;
         RoomController.current_temp := PyInt 25;
         RoomController.is_occupied := PyBool true;
         RoomController.current_light_level := PyInt 500;
         RoomController.manual_ac_override := PyNone;
         RoomController.manual_light_override := PyNone |}
           {[ "sensor_type" := PyStr "temperature";
              "value" := PyStr "29.0" ]}
           (PyStr "29.0")).
  - reflexivity.
  - reflexivity.
  - right. exists "29.0". reflexivity.
  - reflexivity.
  - right. left. reflexivity.
Defined.
